(** * Analytics event translators of the wallet background script

    A shallow embedding of [src/shared/analytics/analytics.background.ts]:
    the handlers that [trackAppEvents] registers on the event emitter, the
    values and objects they build, and the calls they make to the metrics
    sink.  Code imported from other modules (the parameter builder, the
    provider vocabularies, the URL parser, the preference diff, ...) is a
    field of [Collaborators]; the handlers are written over an arbitrary
    such record. *)

From Stdlib Require Import ZArith Lia.
From stdpp Require Import base gmap strings list pretty.

Local Open Scope string_scope.
#[local] Set Warnings "-register-all".

(** ** JavaScript values *)

Inductive value : Type :=
| VUndefined
| VNull
| VBool (b : bool)
| VNum (n : Z)
| VStr (s : string)
| VArr (items : list value)
| VObj (props : list (string * value))
| VBuiltin (member : string).
(* [VBuiltin k] is the member [k] that an object literal inherits from
   [Object.prototype] (a function, or the prototype itself for
   ["__proto__"]). *)

(** A plain object, as its own enumerable properties. *)
Abbreviation obj := (gmap string value).

(** [{ k1: v1, k2: v2, ... }]: a later property of the same name wins. *)
Definition literal (props : list (string * value)) : obj :=
  foldl (fun o kv => <[kv.1 := kv.2]> o) ∅ props.

(** [{ ...o, ...src }]: the properties of [src] are copied over [o]. *)
Definition spread (src o : obj) : obj := src ∪ o.

(** The members every object literal inherits. *)
Definition Object_prototype : list string :=
  [ "constructor"; "__defineGetter__"; "__defineSetter__"; "hasOwnProperty";
    "__lookupGetter__"; "__lookupSetter__"; "isPrototypeOf";
    "propertyIsEnumerable"; "toString"; "valueOf"; "__proto__";
    "toLocaleString" ].

Definition inherited (k : string) : bool :=
  existsb (String.eqb k) Object_prototype.

(** Property read [o[k]] on an object literal: own property first, then
    the prototype, then [undefined]. *)
Definition get (o : obj) (k : string) : value :=
  match o !! k with
  | Some v => v
  | None => if inherited k then VBuiltin k else VUndefined
  end.

Definition nullish (v : value) : bool :=
  match v with
  | VUndefined | VNull => true
  | _ => false
  end.

(** [a ?? b] *)
Definition coalesce (a b : value) : value := if nullish a then b else a.

Definition truthy (v : value) : bool :=
  match v with
  | VUndefined | VNull => false
  | VBool b => b
  | VNum n => negb (n =? 0)%Z
  | VStr s => negb (String.eqb s "")
  | VArr _ | VObj _ | VBuiltin _ => true
  end.

(** [a || b] *)
Definition or_else (a b : value) : value := if truthy a then a else b.

(** An optional string field: absent reads as [undefined]. *)
Definition optional (s : option string) : value :=
  match s with
  | Some x => VStr x
  | None => VUndefined
  end.

(** A nullable string field: absent reads as [null]. *)
Definition nullable (s : option string) : value :=
  match s with
  | Some x => VStr x
  | None => VNull
  end.

(** ** Exceptions *)

Inductive exn : Type :=
| TypeError (msg : string)
| Failure (msg : string).

Inductive result (A : Type) : Type :=
| Ok (a : A)
| Raise (e : exn).

Arguments Ok {A} a.
Arguments Raise {A} e.

Definition bind {A B : Type} (r : result A) (k : A -> result B) : result B :=
  match r with
  | Ok a => k a
  | Raise e => Raise e
  end.

Notation "x <- r ;; k" := (bind r (fun x => k))
  (at level 100, r at next level, right associativity).

(** ** The account object *)

(* [uid] is the user's [id]. *)
Record User : Type := { uid : string }.

Record Wallet : Type := {
  (* [apiLayer.getWalletGroupByAddressSync({ params: { address }, ... })]:
     the group (or [null]) when the call returns, the exception when it
     throws. *)
  getWalletGroupByAddressSync : string -> result value
}.

Record Account : Type := {
  getUser : option User;
  getCurrentWallet : Wallet
}.

(** ** Event payloads *)

Record URL : Type := { origin : string; pathname : string }.

Record Transaction : Type := {
  chainId : value;
  from : string;
  gasLimit : option Z;
  hash : string
}.

Record NativeAsset : Type := { symbol : string }.

Record Network : Type := {
  external_id : string;
  rpc_url_internal : option string;
  name : string;
  native_asset : option NativeAsset;
  explorer_home_url : option string
}.

Inductive Event : Type :=
| dappConnection (dapp_origin address : string)
| screenView (address : option string) (path : string)
    (previous : option string) (screenSize : string)
| daylightAction (event_name : string) (data : obj)
| transactionSent (transaction : Transaction) (initiator : string)
    (feeValueCommon addressAction quote : value)
| typedDataSigned (typedData : value) (initiator address : string)
| messageSigned (message : value) (initiator address : string)
| addEthereumChain (values : list Network) (source : string)
| globalPreferencesChange (state prevState : value).

(** ** Imported code *)

Record FlagsChange : Type := {
  enabled : list string;
  disabled : list string
}.

Record Collaborators : Type := {
  (* [globalThis.location.origin] *)
  location_origin : string;
  INTERNAL_ORIGIN : string;
  (* [new URL(s)]; [None] when the constructor throws its TypeError *)
  newURL : string -> option URL;
  getProviderNameFromGroup : value -> value;
  getProviderForMetabase : value -> value;
  (* [createParams] of [./analytics] *)
  createBaseParams : obj -> obj;
  (* [ethers.utils.hexValue] *)
  hexValue : value -> string;
  (* [networks.getChainById(id)?.toString()] on the loaded registry;
     [None] when the registry has no such chain *)
  getChainById : string -> option string;
  addressActionToAnalytics : value -> value -> obj;
  getWalletNameFlagsChange : value -> value -> FlagsChange
}.

(** ** What a handler does *)

(* [sendToMetabase(recordName, params)] *)
Record Call : Type := { recordName : string; params : obj }.

(* A callback handed to [onIdle]; the only one in the file closes over the
   two preference snapshots (and over [account], which it reads when it
   runs). *)
Inductive Task : Type :=
| flagsChangeTask (state prevState : value).

Record Effects : Type := { sent : list Call; deferred : list Task }.

Definition nothing : Effects := {| sent := []; deferred := [] |}.

Definition send (recordName : string) (p : obj) : Effects :=
  {| sent := [ {| recordName := recordName; params := p |} ]; deferred := [] |}.

(** Modelled from the spec: [onIdle] of [./analytics], which the source
    imports.  It "defers execution of a callback until the host
    environment reports no pending user-interactive work": the callback is
    not run by the call, it is queued. *)
Definition onIdle (t : Task) : Effects :=
  {| sent := []; deferred := [t] |}.

(** ** The handlers of [trackAppEvents] *)

Section TrackAppEvents.

Context (E : Collaborators) (account : Account).

Definition new_URL (s : string) : result URL :=
  match newURL E s with
  | Some u => Ok u
  | None => Raise (TypeError "Invalid URL")
  end.

Definition queryWalletProvider (address : string) : result value :=
  let apiLayer := getCurrentWallet account in
  group <- getWalletGroupByAddressSync apiLayer address ;;
  Ok (getProviderNameFromGroup E group).

Definition getProvider (address : string) : result value :=
  provider <- queryWalletProvider address ;;
  Ok (getProviderForMetabase E provider).

Definition getUserId : value :=
  match getUser account with
  | Some user => VStr (uid user)
  | None => VUndefined
  end.

Definition createParams (p : obj) : obj :=
  createBaseParams E (<["userId" := getUserId]> p).

Definition on_dappConnection (dapp_origin address : string)
  : result Effects :=
  wallet_provider <- getProvider address ;;
  let p := createBaseParams E (literal
    [ ("request_name", VStr "dapp_connection");
      ("dapp_domain", VStr dapp_origin);
      ("wallet_address", VStr address);
      ("wallet_provider", wallet_provider) ]) in
  Ok (send "dapp_connection" p).

Definition on_screenView (address : option string) (path : string)
    (previous : option string) (screenSize : string) : result Effects :=
  wallet_provider <-
    (match address with
     | Some a => if truthy (VStr a) then getProvider a else Ok VNull
     | None => Ok VNull
     end) ;;
  let p := createBaseParams E (literal
    [ ("request_name", VStr "screen_view");
      ("wallet_address", optional address);
      ("wallet_provider", wallet_provider);
      ("screen_name", VStr path);
      ("previous_screen_name", nullable previous);
      ("screen_size", VStr screenSize) ]) in
  Ok (send "screen_view" p).

Definition on_daylightAction (event_name : string) (data : obj)
  : result Effects :=
  let p := createBaseParams E (spread data (literal
    [ ("request_name", VStr "daylight_action");
      ("wallet_address", get data "address");
      ("event_name", VStr event_name) ])) in
  Ok (send "daylight_action" p).

Definition chain_label (chainId : string) : string :=
  match getChainById E chainId with
  | Some label => if String.eqb label "" then chainId else label
  | None => chainId
  end.

Definition on_transactionSent (transaction : Transaction)
    (initiator : string) (feeValueCommon addressAction quote : value)
  : result Effects :=
  initiatorURL <- new_URL initiator ;;
  let chainId := hexValue E (chainId transaction) in
  let chain := chain_label chainId in
  wallet_provider <- getProvider (from transaction) ;;
  gas <-
    (match gasLimit transaction with
     | Some g => Ok (VStr (pretty g))
     | None =>
         Raise (TypeError "Cannot read properties of undefined (reading 'toString')")
     end) ;;
  let internal := String.eqb (location_origin E) (origin initiatorURL) in
  let p := createBaseParams E
    (spread (addressActionToAnalytics E addressAction quote) (literal
      [ ("request_name", VStr "signed_transaction");
        ("screen_name",
          if String.eqb (origin initiatorURL) initiator
          then VStr "Transaction Request"
          else VStr (pathname initiatorURL));
        ("wallet_address", VStr (from transaction));
        ("wallet_provider", wallet_provider);
        ("context",
          if internal then VStr "Extension" else VStr "External Dapp");
        ("type", VStr "sign");
        ("dapp_domain",
          if internal then VNull else VStr (origin initiatorURL));
        ("chain", VStr chain);
        ("gas", gas);
        ("hash", VStr (hash transaction));
        ("asset_amount_sent", VArr []);
        ("gas_price", VNull);
        ("network_fee", VNull);
        ("network_fee_value", feeValueCommon) ])) in
  Ok (send "signed_transaction" p).

Definition eventToMethod : obj :=
  literal [ ("typedDataSigned", VStr "_signTypedData");
            ("messageSigned", VStr "signMessage") ].

Definition handleSign (type initiator address : string) : result Effects :=
  if String.eqb initiator (INTERNAL_ORIGIN E) then Ok nothing
  else
    initiatorURL <- new_URL initiator ;;
    let method := coalesce (get eventToMethod type) (VStr "unexpected type") in
    wallet_provider <- getProvider address ;;
    let internal := String.eqb (location_origin E) (origin initiatorURL) in
    let p := createBaseParams E (literal
      [ ("request_name", VStr "signed_message");
        ("type", method);
        ("wallet_address", VStr address);
        ("address", VStr address);
        ("wallet_provider", wallet_provider);
        ("context",
          if internal then VStr "Extension" else VStr "External Dapp");
        ("dapp_domain",
          if internal then VNull else VStr (origin initiatorURL)) ]) in
    Ok (send "signed_message" p).

Definition native_asset_symbol (network : Network) : value :=
  or_else
    (match native_asset network with
     | Some asset => VStr (symbol asset)
     | None => VUndefined
     end)
    VNull.

(* The parameter pattern [{ values: [network], origin }] binds the first
   element of [values]; with no element [network] is [undefined] and the
   first property read throws. *)
Definition on_addEthereumChain (values : list Network) (source : string)
  : result Effects :=
  match values with
  | [] =>
      Raise (TypeError "Cannot read properties of undefined (reading 'external_id')")
  | network :: _ =>
      let p := createParams (literal
        [ ("request_name", VStr "add_custom_evm");
          ("source", VStr source);
          ("network_external_id", VStr (external_id network));
          ("network_rpc_url_internal", nullable (rpc_url_internal network));
          ("network_name", VStr (name network));
          ("network_native_asset_symbol", native_asset_symbol network);
          ("network_explorer_home_url", nullable (explorer_home_url network)) ]) in
      Ok (send "add_custom_evm" p)
  end.

Definition on_globalPreferencesChange (state prevState : value)
  : result Effects :=
  Ok (onIdle (flagsChangeTask state prevState)).

Definition metamask_mode (on : bool) (key : string) : Call :=
  {| recordName := "metamask_mode";
     params := createParams (literal
       [ ("request_name", VStr "metamask_mode");
         ("enabled", VBool on);
         ("dapp_domain", VStr key) ]) |}.

(* The body of the callback given to [onIdle]. *)
Definition run_task (t : Task) : list Call :=
  match t with
  | flagsChangeTask state prevState =>
      let change := getWalletNameFlagsChange E state prevState in
      map (metamask_mode true) (enabled change)
      ++ map (metamask_mode false) (disabled change)
  end.

End TrackAppEvents.

(** ** [initialize] *)

(* What an [async] function hands back: a promise that is fulfilled with
   the value returned or rejected with the exception thrown. *)
Inductive promise (A : Type) : Type :=
| Fulfilled (a : A)
| Rejected (e : exn).

Arguments Fulfilled {A} a.
Arguments Rejected {A} e.

Definition settle {A : Type} (r : result A) : promise A :=
  match r with
  | Ok a => Fulfilled a
  | Raise e => Rejected e
  end.

(* The [getWalletProvider] that [initialize] gives to the request hook of
   the second sink.  [getProviderForApiV4] is imported from the module of
   [getProviderForMetabase]. *)
Definition getWalletProvider (E : Collaborators)
    (getProviderForApiV4 : value -> value) (account : Account)
    (address : string) : promise value :=
  settle (provider <- queryWalletProvider E account address ;;
          Ok (getProviderForApiV4 provider)).

(** ** Dispatch of an event to its handler *)

(* A synchronous handler returns or throws to the emitter; the
   [transactionSent] handler is [async], so it hands the emitter a promise
   that is fulfilled after the send or rejected with the exception. *)
Inductive outcome : Type :=
| Returns (eff : Effects)
| Throws (e : exn)
| Resolves (eff : Effects)
| Rejects (e : exn).

Definition sync (r : result Effects) : outcome :=
  match r with
  | Ok eff => Returns eff
  | Raise e => Throws e
  end.

Definition async (r : result Effects) : outcome :=
  match r with
  | Ok eff => Resolves eff
  | Raise e => Rejects e
  end.

Definition handle (E : Collaborators) (account : Account) (ev : Event)
  : outcome :=
  match ev with
  | dappConnection dapp_origin address =>
      sync (on_dappConnection E account dapp_origin address)
  | screenView address path previous screenSize =>
      sync (on_screenView E account address path previous screenSize)
  | daylightAction event_name data =>
      sync (on_daylightAction E event_name data)
  | transactionSent transaction initiator feeValueCommon addressAction quote =>
      async (on_transactionSent E account transaction initiator
               feeValueCommon addressAction quote)
  | typedDataSigned _ initiator address =>
      sync (handleSign E account "typedDataSigned" initiator address)
  | messageSigned _ initiator address =>
      sync (handleSign E account "messageSigned" initiator address)
  | addEthereumChain values source =>
      sync (on_addEthereumChain E account values source)
  | globalPreferencesChange state prevState =>
      sync (on_globalPreferencesChange state prevState)
  end.

Definition effects_of (o : outcome) : Effects :=
  match o with
  | Returns eff | Resolves eff => eff
  | Throws _ | Rejects _ => nothing
  end.

Definition completes (o : outcome) : bool :=
  match o with
  | Returns _ | Resolves _ => true
  | Throws _ | Rejects _ => false
  end.

(** The calls made while the handler itself runs. *)
Definition records (o : outcome) : list Call := sent (effects_of o).

(** The first of them (a call under no name when there is none). *)
Definition first_record (o : outcome) : Call :=
  hd {| recordName := ""; params := ∅ |} (records o).

(** Every call an event leads to: those of the handler, then those of the
    callbacks it deferred, run against the account [later] as it is when
    the host is idle. *)
Definition emitted (E : Collaborators) (account later : Account) (ev : Event)
  : list Call :=
  let eff := effects_of (handle E account ev) in
  sent eff ++ flat_map (run_task E later) (deferred eff).

(** ** The process over time *)

(* The account is one object shared with the rest of the background
   script; its user changes on login and logout.  Deferred callbacks wait
   in [idle] until the host is idle, and then run in the order they were
   queued.  An exception of a handler goes to the emitter's caller (or to
   the rejected promise) and leaves the world as it was. *)
Record World : Type := {
  world_account : Account;
  idle : list Task;
  metabase : list Call
}.

Inductive Action : Type :=
| Emit (ev : Event)
| SetUser (user : option User)
| Idle.

Definition step (E : Collaborators) (w : World) (a : Action) : World :=
  match a with
  | Emit ev =>
      let eff := effects_of (handle E (world_account w) ev) in
      {| world_account := world_account w;
         idle := idle w ++ deferred eff;
         metabase := metabase w ++ sent eff |}
  | SetUser user =>
      {| world_account :=
           {| getUser := user;
              getCurrentWallet := getCurrentWallet (world_account w) |};
         idle := idle w;
         metabase := metabase w |}
  | Idle =>
      {| world_account := world_account w;
         idle := [];
         metabase :=
           metabase w ++ flat_map (run_task E (world_account w)) (idle w) |}
  end.

Definition run (E : Collaborators) (w : World) (actions : list Action)
  : World :=
  foldl (step E) w actions.

(** ** Contracts of the imported code used by the statements below *)

(** [undefined] is stored as [null]. *)
Definition nullify (v : value) : value :=
  match v with
  | VUndefined => VNull
  | _ => v
  end.

(** The field names through which the user's identity travels: the
    [userId] argument of the base builder and the [user_id] it becomes. *)
Definition identity_key (k : string) : bool :=
  String.eqb k "userId" || String.eqb k "user_id".

(** The base builder keeps every other field it is given. *)
Definition keeps_fields (build : obj -> obj) : Prop :=
  forall (p : obj) (k : string) (v : value),
    identity_key k = false -> p !! k = Some v ->
    build p !! k = Some (nullify v).

(** The base builder stores its [userId] argument as [user_id]. *)
Definition stores_user_id (build : obj -> obj) : Prop :=
  forall p : obj, build p !! "user_id" = Some (nullify (get p "userId")).

(** The address-action adapter produces no field named [k]. *)
Definition adapter_avoids (E : Collaborators) (k : string) : Prop :=
  forall addressAction quote : value,
    addressActionToAnalytics E addressAction quote !! k = None.

(** ** A concrete environment *)

Module Sample.

(* Stands for [new URL] on the strings the examples use: [https://host]
   and [https://host/path] are split into origin and path (the path of a
   bare origin is [/]); a string without the scheme is rejected, as the
   constructor rejects a string that is not an absolute URL. *)
Fixpoint split_host (s : string) : string * string :=
  match s with
  | EmptyString => (EmptyString, EmptyString)
  | String c rest =>
      if Ascii.eqb c (Ascii.ascii_of_nat 47) then (EmptyString, s)
      else let (h, p) := split_host rest in (String c h, p)
  end.

Definition parse (s : string) : option URL :=
  if String.prefix "https://" s then
    let (host, p) := split_host (String.substring 8 (String.length s - 8) s) in
    if String.eqb host "" then None
    else Some {| origin := String.append "https://" host;
                 pathname := if String.eqb p "" then "/" else p |}
  else None.

Definition provider_of (group : value) : value :=
  match group with
  | VObj (("provider", v) :: _) => v
  | _ => VNull
  end.

Definition build (p : obj) : obj :=
  <["user_id" := nullify (get p "userId")]>
    ((nullify <$> delete "userId" p)
     ∪ literal [ ("origin", VStr "https://wallet.example");
                 ("app_version", VStr "1.0.0") ]).

Definition adapter (addressAction quote : value) : obj :=
  literal [ ("action_type", addressAction);
            ("asset_amount_sent", VArr [VStr "1.5"]) ].

Definition flag (props : list (string * value)) (k : string) : bool :=
  existsb (fun kv => String.eqb kv.1 k && truthy kv.2) props.

Definition keys_on (props : list (string * value)) : list string :=
  map fst (filter (fun kv => truthy kv.2 = true) props).

Definition diff (state prevState : value) : FlagsChange :=
  match state, prevState with
  | VObj now, VObj before =>
      {| enabled := filter (fun k => flag before k = false) (keys_on now);
         disabled := filter (fun k => flag now k = false) (keys_on before) |}
  | _, _ => {| enabled := []; disabled := [] |}
  end.

Definition env : Collaborators :=
  {| location_origin := "https://wallet.example";
     INTERNAL_ORIGIN := "internal";
     newURL := parse;
     getProviderNameFromGroup := provider_of;
     getProviderForMetabase := fun provider => provider;
     createBaseParams := build;
     hexValue := fun _ => "0x1";
     getChainById := fun c => if String.eqb c "0x1" then Some "ethereum" else None;
     addressActionToAnalytics := adapter;
     getWalletNameFlagsChange := diff |}.

(* A wallet whose record is loaded, and one whose lookup throws. *)
Definition loaded : Wallet :=
  {| getWalletGroupByAddressSync := fun address =>
       if String.eqb address "0xabc"
       then Ok (VObj [("provider", VStr "ledger")])
       else Ok VNull |}.

Definition unloaded : Wallet :=
  {| getWalletGroupByAddressSync := fun _ => Raise (Failure "no wallet record") |}.

Definition alice : User := {| uid := "alice" |}.
Definition bob : User := {| uid := "bob" |}.

Definition account : Account :=
  {| getUser := Some alice; getCurrentWallet := loaded |}.

Definition locked : Account :=
  {| getUser := None; getCurrentWallet := unloaded |}.

Definition tx : Transaction :=
  {| chainId := VNum 1; from := "0xabc"; gasLimit := Some 21000%Z;
     hash := "0xfeed" |}.

Definition mainnet : Network :=
  {| external_id := "0x1"; rpc_url_internal := Some "https://rpc.example";
     name := "Ethereum"; native_asset := Some {| symbol := "ETH" |};
     explorer_home_url := Some "https://scan.example" |}.

Definition devnet : Network :=
  {| external_id := "0x539"; rpc_url_internal := None;
     name := "Devnet"; native_asset := None;
     explorer_home_url := None |}.

End Sample.

(** ** Vocabulary of the statements *)

(** The wallet-group lookup a handler makes for [address]. *)
Definition wallet_group (account : Account) (address : string)
  : result value :=
  getWalletGroupByAddressSync (getCurrentWallet account) address.

(** The provider as it is written into a record. *)
Definition presented (E : Collaborators) (group : value) : value :=
  getProviderForMetabase E (getProviderNameFromGroup E group).

(** The [context] and [dapp_domain] a parsed initiator leads to. *)
Definition context_of (E : Collaborators) (u : URL) : value :=
  if String.eqb (location_origin E) (origin u)
  then VStr "Extension" else VStr "External Dapp".

Definition dapp_domain_of (E : Collaborators) (u : URL) : value :=
  if String.eqb (location_origin E) (origin u)
  then VNull else VStr (origin u).

(** The [screen_name] of a transaction request. *)
Definition screen_name_of (initiator : string) (u : URL) : value :=
  if String.eqb (origin u) initiator
  then VStr "Transaction Request" else VStr (pathname u).

(** The provider lookup of a screen view: none without an address. *)
Definition screen_provider (E : Collaborators) (account : Account)
    (address : option string) : result value :=
  match address with
  | Some a => if String.eqb a "" then Ok VNull else getProvider E account a
  | None => Ok VNull
  end.

(** The signing method named by the event. *)
Definition method_of (type : string) : value :=
  coalesce (get eventToMethod type) (VStr "unexpected type").

(** The record name each event variant is translated to. *)
Definition request_name_of (ev : Event) : string :=
  match ev with
  | dappConnection _ _ => "dapp_connection"
  | screenView _ _ _ _ => "screen_view"
  | daylightAction _ _ => "daylight_action"
  | transactionSent _ _ _ _ _ => "signed_transaction"
  | typedDataSigned _ _ _ | messageSigned _ _ _ => "signed_message"
  | addEthereumChain _ _ => "add_custom_evm"
  | globalPreferencesChange _ _ => "metamask_mode"
  end.

(** How many records a completed translation dispatches. *)
Definition fan_out (E : Collaborators) (ev : Event) : nat :=
  match ev with
  | typedDataSigned _ initiator _ | messageSigned _ initiator _ =>
      if String.eqb initiator (INTERNAL_ORIGIN E) then 0 else 1
  | globalPreferencesChange state prevState =>
      let change := getWalletNameFlagsChange E state prevState in
      length (enabled change) + length (disabled change)
  | _ => 1
  end.

(** The passthrough fields of a daylight action carry no [request_name]
    of their own. *)
Definition passthrough_clean (ev : Event) : Prop :=
  match ev with
  | daylightAction _ data => data !! "request_name" = None
  | _ => True
  end.

(** A call made under the name [n] with a record that carries it. *)
Definition named (n : string) (c : Call) : Prop :=
  recordName c = n /\ params c !! "request_name" = Some (VStr n).

(** The initiator and address of a signing event. *)
Definition signing (ev : Event) : option (string * string) :=
  match ev with
  | typedDataSigned _ initiator address
  | messageSigned _ initiator address => Some (initiator, address)
  | _ => None
  end.

(** The initiator of the events that carry one. *)
Definition initiator_of (ev : Event) : option string :=
  match ev with
  | transactionSent _ initiator _ _ _
  | typedDataSigned _ initiator _
  | messageSigned _ initiator _ => Some initiator
  | _ => None
  end.







(** The record of one changed key. *)
Definition flag_record (on : bool) (key : string) (c : Call) : Prop :=
  recordName c = "metamask_mode"
  /\ params c !! "request_name" = Some (VStr "metamask_mode")
  /\ params c !! "enabled" = Some (VBool on)
  /\ params c !! "dapp_domain" = Some (VStr key).

(** The [user_id] of a session: the user's id, or [null] without a user. *)
Definition session_user_id (user : option User) : value :=
  match user with
  | Some u => VStr (uid u)
  | None => VNull
  end.

(** The two events whose handlers use the base builder directly. *)
Definition connection_or_view (ev : Event) : bool :=
  match ev with
  | dappConnection _ _ | screenView _ _ _ _ => true
  | _ => false
  end.

(** The callbacks the handler of [ev] hands to [onIdle]. *)
Definition deferred_by (ev : Event) : list Task :=
  match ev with
  | globalPreferencesChange state prevState =>
      [flagsChangeTask state prevState]
  | _ => []
  end.

(** The callbacks a sequence of actions leaves waiting, in order, when
    the host is never idle in between. *)
Definition tasks_of (actions : list Action) : list Task :=
  flat_map (fun a => match a with
                     | Emit ev => deferred_by ev
                     | _ => []
                     end) actions.

Definition is_idle (a : Action) : bool :=
  match a with
  | Idle => true
  | _ => false
  end.

(** The record names the file ever passes to [sendToMetabase]. *)
Definition known_name (n : string) : bool :=
  existsb (String.eqb n)
    [ "dapp_connection"; "screen_view"; "daylight_action";
      "signed_transaction"; "signed_message"; "add_custom_evm";
      "metamask_mode" ].

(** The sample environment with an address-action adapter that has
    nothing to add. *)
Definition plain_env : Collaborators :=
  {| location_origin := location_origin Sample.env;
     INTERNAL_ORIGIN := INTERNAL_ORIGIN Sample.env;
     newURL := newURL Sample.env;
     getProviderNameFromGroup := getProviderNameFromGroup Sample.env;
     getProviderForMetabase := getProviderForMetabase Sample.env;
     createBaseParams := createBaseParams Sample.env;
     hexValue := hexValue Sample.env;
     getChainById := getChainById Sample.env;
     addressActionToAnalytics := fun _ _ => ∅;
     getWalletNameFlagsChange := getWalletNameFlagsChange Sample.env |}.

(** * Properties *)

(** ** Objects *)

Lemma spread_avoids (src o : obj) (k : string) :
  src !! k = None -> spread src o !! k = o !! k.
Proof. intros Hk. unfold spread. by rewrite lookup_union_r. Qed.

Lemma identity_key_false (k : string) :
  identity_key k = false -> k <> "userId" /\ k <> "user_id".
Proof.
  unfold identity_key. intros H. apply orb_false_iff in H as [H1 H2].
  split; intros ->; discriminate.
Qed.

Lemma keeps_defined (build : obj -> obj) (p : obj) (k : string) (v : value) :
  keeps_fields build -> identity_key k = false -> p !! k = Some v ->
  v <> VUndefined -> build p !! k = Some v.
Proof.
  intros Hb Hk Hp Hv. rewrite (Hb p k v Hk Hp). by destruct v.
Qed.

(** The identity-bearing builder hands the same fields on. *)
Lemma createParams_keeps (E : Collaborators) (account : Account)
    (p : obj) (k : string) (v : value) :
  keeps_fields (createBaseParams E) -> identity_key k = false ->
  p !! k = Some v ->
  createParams E account p !! k = Some (nullify v).
Proof.
  intros Hb Hk Hp. unfold createParams. apply Hb; [done|].
  apply identity_key_false in Hk as [Hk _].
  by rewrite lookup_insert_ne.
Qed.

(** ** The sample environment meets the contracts *)

Lemma sample_keeps_fields : keeps_fields Sample.build.
Proof.
  intros p k v Hk Hp. unfold Sample.build.
  apply identity_key_false in Hk as [Hk1 Hk2].
  rewrite lookup_insert_ne by done.
  apply lookup_union_Some_l.
  by rewrite lookup_fmap, lookup_delete_ne, Hp.
Qed.

Lemma sample_stores_user_id : stores_user_id Sample.build.
Proof. intros p. unfold Sample.build. by rewrite lookup_insert_eq. Qed.

Lemma sample_adapter_avoids (k : string) :
  k <> "action_type" -> k <> "asset_amount_sent" ->
  adapter_avoids Sample.env k.
Proof.
  intros H1 H2 a q. simpl. unfold Sample.adapter, literal. simpl.
  by rewrite !lookup_insert_ne.
Qed.

(** ** What each handler returns *)

Section HandlerResults.

Context (E : Collaborators) (account : Account).

Lemma getProvider_returns (address : string) (group : value) :
  wallet_group account address = Ok group ->
  getProvider E account address = Ok (presented E group).
Proof.
  unfold wallet_group. intros H.
  unfold getProvider, queryWalletProvider. simpl. by rewrite H.
Qed.

Lemma getProvider_raises (address : string) (e : exn) :
  wallet_group account address = Raise e ->
  getProvider E account address = Raise e.
Proof.
  unfold wallet_group. intros H.
  unfold getProvider, queryWalletProvider. simpl. by rewrite H.
Qed.

Lemma dappConnection_returns (dapp_origin address : string) (group : value) :
  wallet_group account address = Ok group ->
  exists fields : obj,
    on_dappConnection E account dapp_origin address
      = Ok (send "dapp_connection" (createBaseParams E fields))
    /\ fields !! "request_name" = Some (VStr "dapp_connection")
    /\ fields !! "dapp_domain" = Some (VStr dapp_origin)
    /\ fields !! "wallet_address" = Some (VStr address)
    /\ fields !! "wallet_provider" = Some (presented E group).
Proof.
  intros H. unfold on_dappConnection.
  rewrite (getProvider_returns _ _ H). simpl.
  eexists. split; [reflexivity|]. repeat split; reflexivity.
Qed.

Lemma dappConnection_raises (dapp_origin address : string) (e : exn) :
  wallet_group account address = Raise e ->
  on_dappConnection E account dapp_origin address = Raise e.
Proof.
  intros H. unfold on_dappConnection. by rewrite (getProvider_raises _ _ H).
Qed.

Lemma screenView_returns (address : option string) (path : string)
    (previous : option string) (screenSize : string) (provider : value) :
  screen_provider E account address = Ok provider ->
  exists fields : obj,
    on_screenView E account address path previous screenSize
      = Ok (send "screen_view" (createBaseParams E fields))
    /\ fields !! "request_name" = Some (VStr "screen_view")
    /\ fields !! "wallet_address" = Some (optional address)
    /\ fields !! "wallet_provider" = Some provider
    /\ fields !! "screen_name" = Some (VStr path).
Proof.
  intros H. unfold on_screenView.
  assert (Hp : match address with
               | Some a => if truthy (VStr a) then getProvider E account a
                           else Ok VNull
               | None => Ok VNull
               end = Ok provider).
  { rewrite <- H. unfold screen_provider. destruct address as [a|]; [|done].
    simpl. by destruct (String.eqb a ""). }
  rewrite Hp. simpl.
  eexists. split; [reflexivity|]. repeat split; reflexivity.
Qed.

Lemma screenView_raises (address : option string) (path : string)
    (previous : option string) (screenSize : string) (e : exn) :
  screen_provider E account address = Raise e ->
  on_screenView E account address path previous screenSize = Raise e.
Proof.
  intros H. unfold on_screenView.
  destruct address as [a|]; simpl in *; [|done].
  destruct (String.eqb a ""); simpl; [done|]. by rewrite H.
Qed.

Lemma daylightAction_returns (event_name : string) (data : obj) :
  exists fields : obj,
    on_daylightAction E event_name data
      = Ok (send "daylight_action" (createBaseParams E fields))
    /\ (data !! "request_name" = None ->
        fields !! "request_name" = Some (VStr "daylight_action")).
Proof.
  unfold on_daylightAction. eexists. split; [reflexivity|].
  intros Hd. by rewrite spread_avoids.
Qed.

Lemma transactionSent_returns (transaction : Transaction)
    (initiator : string) (feeValueCommon addressAction quote : value)
    (u : URL) (group : value) (g : Z) :
  newURL E initiator = Some u ->
  wallet_group account (from transaction) = Ok group ->
  gasLimit transaction = Some g ->
  exists fields : obj,
    on_transactionSent E account transaction initiator
        feeValueCommon addressAction quote
      = Ok (send "signed_transaction"
              (createBaseParams E
                 (spread (addressActionToAnalytics E addressAction quote)
                    fields)))
    /\ fields !! "request_name" = Some (VStr "signed_transaction")
    /\ fields !! "screen_name" = Some (screen_name_of initiator u)
    /\ fields !! "wallet_provider" = Some (presented E group)
    /\ fields !! "context" = Some (context_of E u)
    /\ fields !! "dapp_domain" = Some (dapp_domain_of E u)
    /\ fields !! "gas" = Some (VStr (pretty g)).
Proof.
  intros Hu Hg Hgas. unfold on_transactionSent, new_URL.
  rewrite Hu. simpl. rewrite (getProvider_returns _ _ Hg). simpl.
  rewrite Hgas. simpl.
  eexists. split; [reflexivity|].
  unfold screen_name_of, context_of, dapp_domain_of.
  repeat split;
    destruct (String.eqb (origin u) initiator);
    destruct (String.eqb (location_origin E) (origin u)); reflexivity.
Qed.

Lemma transactionSent_raises (transaction : Transaction)
    (initiator : string) (feeValueCommon addressAction quote : value) :
  newURL E initiator = None
  \/ (exists e, wallet_group account (from transaction) = Raise e)
  \/ gasLimit transaction = None ->
  exists e : exn,
    on_transactionSent E account transaction initiator
      feeValueCommon addressAction quote = Raise e.
Proof.
  unfold on_transactionSent, new_URL.
  destruct (newURL E initiator) as [u|]; simpl; [|by eauto].
  destruct (wallet_group account (from transaction)) as [group|e] eqn:Hg.
  - rewrite (getProvider_returns _ _ Hg). simpl.
    destruct (gasLimit transaction); simpl; [|by eauto].
    intros [H|[[e H]|H]]; discriminate.
  - rewrite (getProvider_raises _ _ Hg). simpl. by eauto.
Qed.

Lemma handleSign_internal (type initiator address : string) :
  String.eqb initiator (INTERNAL_ORIGIN E) = true ->
  handleSign E account type initiator address = Ok nothing.
Proof. intros H. unfold handleSign. by rewrite H. Qed.

Lemma handleSign_returns (type initiator address : string)
    (u : URL) (group : value) :
  String.eqb initiator (INTERNAL_ORIGIN E) = false ->
  newURL E initiator = Some u ->
  wallet_group account address = Ok group ->
  exists fields : obj,
    handleSign E account type initiator address
      = Ok (send "signed_message" (createBaseParams E fields))
    /\ fields !! "request_name" = Some (VStr "signed_message")
    /\ fields !! "type" = Some (method_of type)
    /\ fields !! "wallet_provider" = Some (presented E group)
    /\ fields !! "context" = Some (context_of E u)
    /\ fields !! "dapp_domain" = Some (dapp_domain_of E u).
Proof.
  intros Hi Hu Hg. unfold handleSign, new_URL. rewrite Hi, Hu. simpl.
  rewrite (getProvider_returns _ _ Hg). simpl.
  eexists. split; [reflexivity|].
  unfold context_of, dapp_domain_of.
  repeat split;
    destruct (String.eqb (location_origin E) (origin u)); reflexivity.
Qed.

Lemma handleSign_raises (type initiator address : string) :
  String.eqb initiator (INTERNAL_ORIGIN E) = false ->
  newURL E initiator = None
  \/ (exists e, wallet_group account address = Raise e) ->
  exists e : exn,
    handleSign E account type initiator address = Raise e.
Proof.
  intros Hi. unfold handleSign, new_URL. rewrite Hi.
  destruct (newURL E initiator) as [u|]; simpl; [|by eauto].
  destruct (wallet_group account address) as [group|e] eqn:Hg.
  - intros [H|[e H]]; discriminate.
  - rewrite (getProvider_raises _ _ Hg). simpl. by eauto.
Qed.

Lemma addEthereumChain_returns (network : Network) (more : list Network)
    (source : string) :
  exists fields : obj,
    on_addEthereumChain E account (network :: more) source
      = Ok (send "add_custom_evm" (createParams E account fields))
    /\ fields !! "request_name" = Some (VStr "add_custom_evm")
    /\ fields !! "source" = Some (VStr source)
    /\ fields !! "network_external_id" = Some (VStr (external_id network))
    /\ fields !! "network_rpc_url_internal"
         = Some (nullable (rpc_url_internal network))
    /\ fields !! "network_name" = Some (VStr (name network))
    /\ fields !! "network_native_asset_symbol"
         = Some (native_asset_symbol network)
    /\ fields !! "network_explorer_home_url"
         = Some (nullable (explorer_home_url network)).
Proof.
  unfold on_addEthereumChain.
  eexists. split; [reflexivity|]. repeat split; reflexivity.
Qed.

Lemma metamask_mode_fields (on : bool) (key : string) :
  exists fields : obj,
    metamask_mode E account on key
      = {| recordName := "metamask_mode";
           params := createBaseParams E (<["userId" := getUserId account]> fields) |}
    /\ fields !! "request_name" = Some (VStr "metamask_mode")
    /\ fields !! "enabled" = Some (VBool on)
    /\ fields !! "dapp_domain" = Some (VStr key).
Proof.
  unfold metamask_mode, createParams.
  eexists. split; [reflexivity|]. repeat split; reflexivity.
Qed.

End HandlerResults.

(** ** One record per event, under the event's fixed name *)

Lemma named_built (E : Collaborators) (n : string) (fields : obj) :
  keeps_fields (createBaseParams E) ->
  fields !! "request_name" = Some (VStr n) ->
  named n {| recordName := n; params := createBaseParams E fields |}.
Proof.
  intros Hb Hf. split; [done|]. simpl.
  by apply (keeps_defined _ _ _ _ Hb).
Qed.

Lemma named_metamask_mode (E : Collaborators) (account : Account)
    (on : bool) (keys : list string) :
  keeps_fields (createBaseParams E) ->
  Forall (named "metamask_mode") (map (metamask_mode E account on) keys).
Proof.
  intros Hb. induction keys as [|key keys IH]; simpl; constructor; [|done].
  split; [done|]. simpl.
  by rewrite (createParams_keeps _ _ _ "request_name"
                (VStr "metamask_mode") Hb).
Qed.

(** C1, as the code has it: every record a translator dispatches goes out
    under the variant's fixed name and carries it as [request_name]; a
    translation that completes dispatches exactly one record, except that
    a signing event from the internal origin dispatches none and a
    preference change dispatches one per changed key once the host is
    idle.  A chain addition dispatches one record whatever the length of
    its [values] list, built from the first network of the list. *)
Theorem C1_records_per_event (E : Collaborators) (account later : Account)
    (ev : Event) :
  keeps_fields (createBaseParams E) ->
  adapter_avoids E "request_name" ->
  passthrough_clean ev ->
  completes (handle E account ev) = true ->
  length (emitted E account later ev) = fan_out E ev
  /\ Forall (named (request_name_of ev)) (emitted E account later ev)
  /\ (forall network more source,
        ev = addEthereumChain (network :: more) source ->
        exists p : obj,
          emitted E account later ev
            = [ {| recordName := "add_custom_evm"; params := p |} ]
          /\ p !! "network_external_id"
               = Some (VStr (external_id network))).
Proof.
  intros Hb Ha Hclean Hdone. unfold emitted.
  destruct ev as [o a|a path prev size|en data|tx i fee aa q
                 |td i a|m i a|vs src|st pst];
    cbn [handle passthrough_clean fan_out request_name_of] in *.
  - destruct (wallet_group account a) as [g|e] eqn:Hg.
    + destruct (dappConnection_returns E account o a g Hg)
        as (f & -> & Hn & _).
      simpl. repeat split; [|done].
      constructor; [|done]. by apply named_built.
    + rewrite (dappConnection_raises E account o a e Hg) in Hdone. done.
  - destruct (screen_provider E account a) as [p|e] eqn:Hp.
    + destruct (screenView_returns E account a path prev size p Hp)
        as (f & -> & Hn & _).
      simpl. repeat split; [|done].
      constructor; [|done]. by apply named_built.
    + rewrite (screenView_raises E account a path prev size e Hp) in Hdone.
      done.
  - destruct (daylightAction_returns E en data) as (f & -> & Hn).
    simpl. repeat split; [|done].
    constructor; [|done]. apply named_built; auto.
  - destruct (newURL E i) as [u|] eqn:Hu;
      [destruct (wallet_group account (from tx)) as [g|e] eqn:Hg;
       [destruct (gasLimit tx) as [gl|] eqn:Hgl|]|].
    + destruct (transactionSent_returns E account tx i fee aa q u g gl
                  Hu Hg Hgl) as (f & -> & Hn & _).
      simpl. repeat split; [|done].
      constructor; [|done]. apply named_built; [done|].
      by rewrite spread_avoids.
    + destruct (transactionSent_raises E account tx i fee aa q) as [e He];
        [by auto|]. rewrite He in Hdone. done.
    + destruct (transactionSent_raises E account tx i fee aa q) as [e' He];
        [by eauto|]. rewrite He in Hdone. done.
    + destruct (transactionSent_raises E account tx i fee aa q) as [e He];
        [by auto|]. rewrite He in Hdone. done.
  - destruct (String.eqb i (INTERNAL_ORIGIN E)) eqn:Hi.
    { rewrite (handleSign_internal E account _ i a Hi). simpl.
      repeat split; done. }
    destruct (newURL E i) as [u|] eqn:Hu;
      [destruct (wallet_group account a) as [g|e] eqn:Hg|].
    + destruct (handleSign_returns E account "typedDataSigned" i a u g
                  Hi Hu Hg) as (f & -> & Hn & _).
      simpl. repeat split; [|done].
      constructor; [|done]. by apply named_built.
    + destruct (handleSign_raises E account "typedDataSigned" i a Hi)
        as [e' He]; [by eauto|]. rewrite He in Hdone. done.
    + destruct (handleSign_raises E account "typedDataSigned" i a Hi)
        as [e' He]; [by eauto|]. rewrite He in Hdone. done.
  - destruct (String.eqb i (INTERNAL_ORIGIN E)) eqn:Hi.
    { rewrite (handleSign_internal E account _ i a Hi). simpl.
      repeat split; done. }
    destruct (newURL E i) as [u|] eqn:Hu;
      [destruct (wallet_group account a) as [g|e] eqn:Hg|].
    + destruct (handleSign_returns E account "messageSigned" i a u g
                  Hi Hu Hg) as (f & -> & Hn & _).
      simpl. repeat split; [|done].
      constructor; [|done]. by apply named_built.
    + destruct (handleSign_raises E account "messageSigned" i a Hi)
        as [e' He]; [by eauto|]. rewrite He in Hdone. done.
    + destruct (handleSign_raises E account "messageSigned" i a Hi)
        as [e' He]; [by eauto|]. rewrite He in Hdone. done.
  - destruct vs as [|n more]; [done|].
    destruct (addEthereumChain_returns E account n more src)
      as (f & Hr & Hn & _ & Hid & _).
    rewrite Hr. simpl. split; [done|]. split.
    + constructor; [|done]. split; [done|]. simpl.
      by rewrite (createParams_keeps _ _ _ "request_name"
                    (VStr "add_custom_evm") Hb).
    + intros n' more' src' [= -> -> ->]. eexists. split; [reflexivity|].
      by rewrite (createParams_keeps _ _ _ "network_external_id"
                    (VStr (external_id n')) Hb).
  - unfold on_globalPreferencesChange. simpl. rewrite app_nil_r.
    split; [|split; [|done]].
    + by rewrite length_app, !length_map.
    + apply Forall_app. split; by apply named_metamask_mode.
Qed.

Lemma C1_records_per_event_witness :
  let ev := globalPreferencesChange
              (VObj [("a.example", VBool true); ("b.example", VBool true)])
              (VObj [("a.example", VBool false); ("b.example", VBool true);
                     ("c.example", VBool true)]) in
  length (emitted Sample.env Sample.account Sample.locked ev) = 2
  /\ Forall (named "metamask_mode")
       (emitted Sample.env Sample.account Sample.locked ev).
Proof.
  intros ev.
  destruct (C1_records_per_event Sample.env Sample.account Sample.locked ev)
    as (Hlen & Hnames & _).
  - apply sample_keeps_fields.
  - apply sample_adapter_avoids; discriminate.
  - exact I.
  - reflexivity.
  - split; [exact Hlen | exact Hnames].
Defined.

(** A chain addition listing two networks dispatches one record, for the
    first of them. *)
Lemma C1_counterexample :
  let values := [Sample.mainnet; Sample.devnet] in
  let ev := addEthereumChain values "https://dapp.example" in
  completes (handle Sample.env Sample.account ev) = true
  /\ map (fun c => params c !! "network_external_id")
       (emitted Sample.env Sample.account Sample.account ev)
     = [Some (VStr "0x1")]
  /\ length (emitted Sample.env Sample.account Sample.account ev)
     <> length values.
Proof. vm_compute. repeat split; discriminate. Qed.

(** ** Records of the initiator-based handlers *)


Lemma handleSign_records (E : Collaborators) (account : Account)
    (type initiator address : string) (c : Call) :
  In c (records (sync (handleSign E account type initiator address))) ->
  exists (u : URL) (group : value) (fields : obj),
    String.eqb initiator (INTERNAL_ORIGIN E) = false
    /\ newURL E initiator = Some u
    /\ wallet_group account address = Ok group
    /\ c = {| recordName := "signed_message";
              params := createBaseParams E fields |}
    /\ fields !! "request_name" = Some (VStr "signed_message")
    /\ fields !! "type" = Some (method_of type)
    /\ fields !! "wallet_provider" = Some (presented E group)
    /\ fields !! "context" = Some (context_of E u)
    /\ fields !! "dapp_domain" = Some (dapp_domain_of E u).
Proof.
  unfold records.
  destruct (String.eqb initiator (INTERNAL_ORIGIN E)) eqn:Hi.
  { rewrite (handleSign_internal E account _ _ _ Hi). simpl. done. }
  destruct (newURL E initiator) as [u|] eqn:Hu;
    [destruct (wallet_group account address) as [g|e] eqn:Hg|].
  - destruct (handleSign_returns E account type initiator address u g
                Hi Hu Hg) as (f & -> & Hn & Ht & Hp & Hc & Hd).
    simpl. intros [<-|[]]. exists u, g, f. by repeat split.
  - destruct (handleSign_raises E account type initiator address Hi)
      as [e' ->]; [by eauto|]. simpl. done.
  - destruct (handleSign_raises E account type initiator address Hi)
      as [e' ->]; [by eauto|]. simpl. done.
Qed.

(** ** Suppression of internal signatures *)

(** C2, as the code has it: a signing event whose initiator is the
    internal origin returns without any call to the sink, without any
    deferred work and without consulting the wallet; a signing event whose
    initiator differs from the internal origin, parses as a URL and whose
    wallet lookup returns dispatches exactly one [signed_message]
    record. *)
Theorem C2_internal_signing_suppressed (E : Collaborators)
    (account : Account) (ev : Event) (initiator address : string) :
  signing ev = Some (initiator, address) ->
  (initiator = INTERNAL_ORIGIN E -> handle E account ev = Returns nothing)
  /\ (initiator <> INTERNAL_ORIGIN E ->
      forall (u : URL) (group : value),
        newURL E initiator = Some u ->
        wallet_group account address = Ok group ->
        exists fields : obj,
          handle E account ev
            = Returns (send "signed_message" (createBaseParams E fields))
          /\ fields !! "request_name" = Some (VStr "signed_message")).
Proof.
  intros Hev. split.
  - intros Hi. apply String.eqb_eq in Hi.
    destruct ev; try discriminate; injection Hev as -> ->; cbn [handle];
      by rewrite (handleSign_internal E account _ _ _ Hi).
  - intros Hi u g Hu Hg. apply String.eqb_neq in Hi.
    destruct ev; try discriminate; injection Hev as -> ->; cbn [handle].
    + destruct (handleSign_returns E account "typedDataSigned" initiator
                  address u g Hi Hu Hg) as (f & -> & Hn & _).
      by exists f.
    + destruct (handleSign_returns E account "messageSigned" initiator
                  address u g Hi Hu Hg) as (f & -> & Hn & _).
      by exists f.
Qed.

Lemma C2_internal_signing_suppressed_witness :
  handle Sample.env Sample.locked (messageSigned VNull "internal" "0xabc")
    = Returns nothing
  /\ exists fields : obj,
       handle Sample.env Sample.account
           (typedDataSigned VNull "https://dapp.example" "0xabc")
         = Returns (send "signed_message" (Sample.build fields))
       /\ fields !! "request_name" = Some (VStr "signed_message").
Proof.
  split.
  - apply (C2_internal_signing_suppressed Sample.env Sample.locked
             (messageSigned VNull "internal" "0xabc") "internal" "0xabc");
      reflexivity.
  - apply (C2_internal_signing_suppressed Sample.env Sample.account
             (typedDataSigned VNull "https://dapp.example" "0xabc")
             "https://dapp.example" "0xabc" eq_refl)
      with (u := {| origin := "https://dapp.example"; pathname := "/" |})
           (group := VObj [("provider", VStr "ledger")]);
      [discriminate | reflexivity | reflexivity].
Defined.

(** A typed-data signature whose initiator is neither the internal origin
    nor a URL: the handler throws and nothing is dispatched. *)
Lemma C2_counterexample :
  let ev := typedDataSigned VNull "popup" "0xabc" in
  "popup" <> INTERNAL_ORIGIN Sample.env
  /\ handle Sample.env Sample.account ev = Throws (TypeError "Invalid URL")
  /\ length (emitted Sample.env Sample.account Sample.account ev) <> 1.
Proof. vm_compute. repeat split; discriminate. Qed.

(** ** Origin classification *)

Lemma built_field (E : Collaborators) (fields : obj) (k : string)
    (v : value) :
  keeps_fields (createBaseParams E) -> identity_key k = false ->
  fields !! k = Some v ->
  createBaseParams E fields !! k = Some (nullify v).
Proof. intros Hb Hk Hf. by apply Hb. Qed.

Lemma built_adapted_field (E : Collaborators) (addressAction quote : value)
    (fields : obj) (k : string) (v : value) :
  keeps_fields (createBaseParams E) -> adapter_avoids E k ->
  identity_key k = false -> fields !! k = Some v ->
  createBaseParams E
    (spread (addressActionToAnalytics E addressAction quote) fields) !! k
  = Some (nullify v).
Proof.
  intros Hb Ha Hk Hf. apply Hb; [done|]. by rewrite spread_avoids.
Qed.







(** ** When a translation completes *)






(** ** Provider lookups *)






(** ** Preference changes *)

Lemma metamask_mode_records (E : Collaborators) (account : Account)
    (on : bool) (keys : list string) :
  keeps_fields (createBaseParams E) ->
  Forall2 (flag_record on) keys (map (metamask_mode E account on) keys).
Proof.
  intros Hb. induction keys as [|key keys IH]; simpl; constructor; [|done].
  destruct (metamask_mode_fields E account on key)
    as (f & -> & Hn & He & Hd).
  split; [done|]. simpl. split; [|split].
  - exact (createParams_keeps E account f "request_name" _ Hb eq_refl Hn).
  - exact (createParams_keeps E account f "enabled" _ Hb eq_refl He).
  - exact (createParams_keeps E account f "dapp_domain" _ Hb eq_refl Hd).
Qed.

(** C7: a preference change leads to one [metamask_mode] record per key
    the diff reports, first the newly enabled keys with [enabled = true],
    then the newly disabled ones with [enabled = false], each with the key
    as [dapp_domain]: [|newlyEnabled| + |newlyDisabled|] records in all. *)
Theorem C7_one_record_per_changed_key (E : Collaborators)
    (account later : Account) (state prevState : value) :
  keeps_fields (createBaseParams E) ->
  let change := getWalletNameFlagsChange E state prevState in
  let out := emitted E account later
               (globalPreferencesChange state prevState) in
  length out = length (enabled change) + length (disabled change)
  /\ exists on off : list Call,
       out = (on ++ off)%list
       /\ Forall2 (flag_record true) (enabled change) on
       /\ Forall2 (flag_record false) (disabled change) off.
Proof.
  intros Hb change out. subst out. unfold emitted. cbn [handle].
  unfold on_globalPreferencesChange. simpl. rewrite app_nil_r. split.
  - by rewrite length_app, !length_map.
  - eexists _, _. split; [reflexivity|].
    split; by apply metamask_mode_records.
Qed.

Lemma C7_one_record_per_changed_key_witness :
  let out := emitted Sample.env Sample.account Sample.account
               (globalPreferencesChange
                  (VObj [("a.example", VBool true); ("b.example", VBool true)])
                  (VObj [("a.example", VBool false); ("b.example", VBool true);
                         ("c.example", VBool true)])) in
  length out = 2
  /\ exists on off : list Call,
       out = (on ++ off)%list
       /\ Forall2 (flag_record true) ["a.example"] on
       /\ Forall2 (flag_record false) ["c.example"] off.
Proof.
  apply (C7_one_record_per_changed_key Sample.env Sample.account
           Sample.account
           (VObj [("a.example", VBool true); ("b.example", VBool true)])
           (VObj [("a.example", VBool false); ("b.example", VBool true);
                  ("c.example", VBool true)])
           sample_keeps_fields).
Defined.

(** ** Session identity *)

(** C8: the handlers of [dappConnection] and [screenView] never read the
    account's user: with the same wallet, any two users give the same
    outcome, record for record; and since the handlers pass no [userId]
    to the base builder, the [user_id] it stores is [null]. *)
Theorem C8_connection_and_view_ignore_user (E : Collaborators)
    (wallet : Wallet) (user user' : option User) (ev : Event) :
  connection_or_view ev = true ->
  handle E {| getUser := user; getCurrentWallet := wallet |} ev
  = handle E {| getUser := user'; getCurrentWallet := wallet |} ev
  /\ (stores_user_id (createBaseParams E) ->
      forall c : Call,
        In c (records
                (handle E {| getUser := user; getCurrentWallet := wallet |}
                   ev)) ->
        params c !! "user_id" = Some VNull).
Proof.
  intros Hev. destruct ev as [o a|a path prev size| | | | | |];
    try discriminate; (split; [reflexivity|]); intros Hs c; cbn [handle].
  - unfold on_dappConnection.
    destruct (getProvider E _ a) as [p|e]; simpl; [|done].
    intros [<-|[]]. simpl. by rewrite Hs.
  - unfold on_screenView.
    match goal with
    | |- context [bind ?r _] => destruct r as [p|e]; simpl; [|done]
    end.
    intros [<-|[]]. simpl. by rewrite Hs.
Qed.

Lemma C8_connection_and_view_ignore_user_witness :
  let ev := screenView (Some "0xabc") "/overview" None "1280x720" in
  handle Sample.env
    {| getUser := Some Sample.alice; getCurrentWallet := Sample.loaded |} ev
  = handle Sample.env
      {| getUser := Some Sample.bob; getCurrentWallet := Sample.loaded |} ev
  /\ params (first_record
       (handle Sample.env
          {| getUser := Some Sample.alice; getCurrentWallet := Sample.loaded |}
          ev)) !! "user_id" = Some VNull.
Proof.
  intros ev.
  destruct (C8_connection_and_view_ignore_user Sample.env Sample.loaded
              (Some Sample.alice) (Some Sample.bob) ev eq_refl)
    as [Hsame Hnull].
  split; [exact Hsame|].
  apply (Hnull sample_stores_user_id). left. reflexivity.
Defined.

Lemma metamask_mode_user_id (E : Collaborators) (account : Account)
    (on : bool) (keys : list string) :
  stores_user_id (createBaseParams E) ->
  Forall (fun c => recordName c = "metamask_mode"
                   /\ params c !! "user_id"
                        = Some (session_user_id (getUser account)))
    (map (metamask_mode E account on) keys).
Proof.
  intros Hs. induction keys as [|key keys IH]; simpl; constructor; [|done].
  split; [done|]. unfold metamask_mode, createParams. simpl. rewrite Hs.
  unfold get. rewrite lookup_insert_eq.
  unfold getUserId. by destruct (getUser account).
Qed.

(** C10: the records of a preference change are built by the
    identity-bearing builder inside the deferred callback.  Nothing is
    dispatched when the event fires; when the host is idle, the callback
    dispatches its records, each with the [user_id] of the user the
    account has at that moment, whoever was the user when the event
    fired. *)
Theorem C10_user_id_read_when_idle (E : Collaborators) (w : World)
    (state prevState : value) (user' : option User) :
  stores_user_id (createBaseParams E) ->
  let ev := globalPreferencesChange state prevState in
  let change := getWalletNameFlagsChange E state prevState in
  let account' := {| getUser := user';
                     getCurrentWallet := getCurrentWallet (world_account w) |} in
  metabase (run E w [Emit ev]) = metabase w
  /\ metabase (run E w [Emit ev; SetUser user']) = metabase w
  /\ exists new : list Call,
       metabase (run E w [Emit ev; SetUser user'; Idle])
         = (metabase w ++ flat_map (run_task E account') (idle w) ++ new)%list
       /\ length new = length (enabled change) + length (disabled change)
       /\ Forall (fun c => recordName c = "metamask_mode"
                           /\ params c !! "user_id"
                                = Some (session_user_id user')) new.
Proof.
  intros Hs ev change account'. unfold run. simpl.
  rewrite !app_nil_r. split; [done|]. split; [done|].
  exists (run_task E account' (flagsChangeTask state prevState)).
  split; [|split].
  - by rewrite flat_map_app; simpl; rewrite app_nil_r.
  - simpl. by rewrite length_app, !length_map.
  - simpl. apply Forall_app.
    split; apply (metamask_mode_user_id E account' _ _ Hs).
Qed.

Lemma C10_user_id_read_when_idle_witness :
  let w := {| world_account := Sample.account; idle := []; metabase := [] |} in
  let ev := globalPreferencesChange
              (VObj [("a.example", VBool true)]) (VObj []) in
  metabase (run Sample.env w [Emit ev]) = []
  /\ map (fun c => params c !! "user_id")
       (metabase (run Sample.env w [Emit ev; SetUser (Some Sample.bob); Idle]))
     = [Some (VStr "bob")].
Proof.
  intros w ev.
  destruct (C10_user_id_read_when_idle Sample.env w
              (VObj [("a.example", VBool true)]) (VObj [])
              (Some Sample.bob) sample_stores_user_id)
    as (Hfired & _ & new & Hfinal & _ & _).
  split; [exact Hfired | reflexivity].
Defined.

(** ** The signing method *)







(** * Further properties of the handlers *)

(** ** The [signed_transaction] record *)

Lemma transactionSent_fields (E : Collaborators) (account : Account)
    (transaction : Transaction) (initiator : string)
    (feeValueCommon addressAction quote : value) (c : Call) :
  In c (records (handle E account
          (transactionSent transaction initiator
             feeValueCommon addressAction quote))) ->
  exists (g : Z) (fields : obj),
    gasLimit transaction = Some g
    /\ c = {| recordName := "signed_transaction";
              params := createBaseParams E
                (spread (addressActionToAnalytics E addressAction quote)
                   fields) |}
    /\ fields !! "chain"
         = Some (VStr (chain_label E (hexValue E (chainId transaction))))
    /\ fields !! "wallet_address" = Some (VStr (from transaction))
    /\ fields !! "gas" = Some (VStr (pretty g))
    /\ fields !! "hash" = Some (VStr (hash transaction))
    /\ fields !! "type" = Some (VStr "sign")
    /\ fields !! "asset_amount_sent" = Some (VArr [])
    /\ fields !! "gas_price" = Some VNull
    /\ fields !! "network_fee" = Some VNull
    /\ fields !! "network_fee_value" = Some feeValueCommon.
Proof.
  unfold records. cbn [handle]. unfold on_transactionSent, new_URL.
  destruct (newURL E initiator) as [u|]; simpl; [|done].
  destruct (getProvider E account (from transaction)) as [p|e]; simpl;
    [|done].
  destruct (gasLimit transaction) as [g|]; simpl; [|done].
  intros [<-|[]]. exists g. eexists. split; [reflexivity|].
  split; [reflexivity|].
  repeat split;
    destruct (String.eqb (origin u) initiator);
    destruct (String.eqb (location_origin E) (origin u)); reflexivity.
Qed.

(** X1: the [chain] of a [signed_transaction] record is the label the
    network registry has for the transaction's chain id; when the registry
    has no such chain, or its label is empty, it is the hexadecimal chain
    id itself. *)
Theorem X1_chain_falls_back_to_chain_id (E : Collaborators)
    (account : Account) (transaction : Transaction) (initiator : string)
    (feeValueCommon addressAction quote : value) (c : Call) :
  keeps_fields (createBaseParams E) ->
  adapter_avoids E "chain" ->
  In c (records (handle E account
          (transactionSent transaction initiator
             feeValueCommon addressAction quote))) ->
  let id := hexValue E (chainId transaction) in
  (getChainById E id = None -> params c !! "chain" = Some (VStr id))
  /\ (getChainById E id = Some "" -> params c !! "chain" = Some (VStr id))
  /\ (forall label, getChainById E id = Some label -> label <> "" ->
        params c !! "chain" = Some (VStr label)).
Proof.
  intros Hb Ha Hc id.
  apply transactionSent_fields in Hc as (g & f & _ & -> & Hchain & _).
  pose proof (built_adapted_field E addressAction quote f "chain" _
                Hb Ha eq_refl Hchain) as H.
  simpl in *. fold id in H. unfold chain_label in H.
  split; [|split].
  - intros Hn. by rewrite Hn in H.
  - intros Hn. by rewrite Hn in H.
  - intros label Hn Hne. rewrite Hn in H.
    destruct (String.eqb_spec label ""); [done|]. exact H.
Qed.

Lemma X1_chain_falls_back_to_chain_id_witness :
  let known := first_record (handle Sample.env Sample.account
                 (transactionSent Sample.tx "https://dapp.example"
                    VNull (VStr "swap") VNull)) in
  params known !! "chain" = Some (VStr "ethereum").
Proof.
  intros known.
  assert (Ha : adapter_avoids Sample.env "chain")
    by (apply sample_adapter_avoids; discriminate).
  destruct (X1_chain_falls_back_to_chain_id Sample.env Sample.account
              Sample.tx "https://dapp.example" VNull (VStr "swap") VNull
              known sample_keeps_fields Ha) as (_ & _ & Hlabel).
  - left. reflexivity.
  - apply (Hlabel "ethereum"); [reflexivity | discriminate].
Defined.

(** X2: the fields of the address-action adapter are spread last, so each
    of them replaces the handler's own field of the same name in the
    [signed_transaction] record (as for the [asset_amount_sent]
    placeholder). *)
Theorem X2_adapter_fields_win (E : Collaborators) (account : Account)
    (transaction : Transaction) (initiator : string)
    (feeValueCommon addressAction quote : value) (c : Call)
    (k : string) (v : value) :
  keeps_fields (createBaseParams E) ->
  identity_key k = false ->
  addressActionToAnalytics E addressAction quote !! k = Some v ->
  In c (records (handle E account
          (transactionSent transaction initiator
             feeValueCommon addressAction quote))) ->
  params c !! k = Some (nullify v).
Proof.
  intros Hb Hk Hv Hc.
  apply transactionSent_fields in Hc as (g & f & _ & -> & _).
  simpl. apply Hb; [done|]. unfold spread. by apply lookup_union_Some_l.
Qed.

Lemma X2_adapter_fields_win_witness :
  let c := first_record (handle Sample.env Sample.account
             (transactionSent Sample.tx "https://dapp.example"
                VNull (VStr "swap") VNull)) in
  params c !! "asset_amount_sent" = Some (VArr [VStr "1.5"]).
Proof.
  intros c.
  apply (X2_adapter_fields_win Sample.env Sample.account Sample.tx
           "https://dapp.example" VNull (VStr "swap") VNull c
           "asset_amount_sent" (VArr [VStr "1.5"]) sample_keeps_fields);
    [reflexivity | reflexivity | left; reflexivity].
Defined.

(** X3: where the adapter supplies nothing, the [signed_transaction]
    record has the transaction's sender, hash and gas limit (in decimal),
    the fee value it was given, [type = "sign"], and the placeholders
    [asset_amount_sent = []], [gas_price = null], [network_fee = null]. *)
Theorem X3_transaction_fields_and_placeholders (E : Collaborators)
    (account : Account) (transaction : Transaction) (initiator : string)
    (feeValueCommon addressAction quote : value) (c : Call) :
  keeps_fields (createBaseParams E) ->
  (forall k : string,
     addressActionToAnalytics E addressAction quote !! k = None) ->
  In c (records (handle E account
          (transactionSent transaction initiator
             feeValueCommon addressAction quote))) ->
  exists g : Z,
    gasLimit transaction = Some g
    /\ params c !! "gas" = Some (VStr (pretty g))
    /\ params c !! "wallet_address" = Some (VStr (from transaction))
    /\ params c !! "hash" = Some (VStr (hash transaction))
    /\ params c !! "type" = Some (VStr "sign")
    /\ params c !! "network_fee_value" = Some (nullify feeValueCommon)
    /\ params c !! "asset_amount_sent" = Some (VArr [])
    /\ params c !! "gas_price" = Some VNull
    /\ params c !! "network_fee" = Some VNull.
Proof.
  intros Hb Hnone Hc.
  apply transactionSent_fields in Hc
    as (g & f & Hg & -> & _ & Hw & Hgas & Hh & Ht & Has & Hgp & Hnf & Hfee).
  exists g. split; [done|]. simpl.
  assert (Hfield : forall k v, identity_key k = false -> f !! k = Some v ->
            createBaseParams E
              (spread (addressActionToAnalytics E addressAction quote) f) !! k
            = Some (nullify v)).
  { intros k v Hk Hf. apply Hb; [done|]. by rewrite spread_avoids. }
  repeat split.
  - exact (Hfield "gas" _ eq_refl Hgas).
  - exact (Hfield "wallet_address" _ eq_refl Hw).
  - exact (Hfield "hash" _ eq_refl Hh).
  - exact (Hfield "type" _ eq_refl Ht).
  - exact (Hfield "network_fee_value" _ eq_refl Hfee).
  - exact (Hfield "asset_amount_sent" _ eq_refl Has).
  - exact (Hfield "gas_price" _ eq_refl Hgp).
  - exact (Hfield "network_fee" _ eq_refl Hnf).
Qed.

Lemma X3_transaction_fields_and_placeholders_witness :
  let c := first_record (handle plain_env Sample.account
             (transactionSent Sample.tx "https://dapp.example"
                (VStr "0.002") VNull VNull)) in
  params c !! "gas" = Some (VStr "21000")
  /\ params c !! "asset_amount_sent" = Some (VArr [])
  /\ params c !! "gas_price" = Some VNull.
Proof.
  intros c.
  destruct (X3_transaction_fields_and_placeholders plain_env Sample.account
              Sample.tx "https://dapp.example" (VStr "0.002") VNull VNull c
              sample_keeps_fields)
    as (g & Hg & Hgas & _ & _ & _ & _ & Has & Hgp & _).
  - intros k. reflexivity.
  - left. reflexivity.
  - injection Hg as <-. repeat split; assumption.
Defined.

(** ** The [daylight_action] record *)



(** ** Records that need no URL *)

(** X5: the handler of [dappConnection] does not parse the origin it is
    given: whenever the wallet lookup returns, exactly one
    [dapp_connection] record is dispatched, with the origin string as
    [dapp_domain] and the address as [wallet_address], whether or not the
    origin is a URL and whether or not it is the internal origin. *)
Theorem X5_dapp_connection_origin_verbatim (E : Collaborators)
    (account : Account) (dapp_origin address : string) (group : value) :
  keeps_fields (createBaseParams E) ->
  wallet_group account address = Ok group ->
  exists p : obj,
    handle E account (dappConnection dapp_origin address)
      = Returns (send "dapp_connection" p)
    /\ p !! "dapp_domain" = Some (VStr dapp_origin)
    /\ p !! "wallet_address" = Some (VStr address).
Proof.
  intros Hb Hg. cbn [handle].
  destruct (dappConnection_returns E account dapp_origin address group Hg)
    as (f & -> & _ & Hd & Ha & _).
  eexists. split; [reflexivity|]. split.
  - exact (built_field E f "dapp_domain" _ Hb eq_refl Hd).
  - exact (built_field E f "wallet_address" _ Hb eq_refl Ha).
Qed.

Lemma X5_dapp_connection_origin_verbatim_witness :
  exists p : obj,
    handle Sample.env Sample.account (dappConnection "not a url" "0xabc")
      = Returns (send "dapp_connection" p)
    /\ p !! "dapp_domain" = Some (VStr "not a url")
    /\ p !! "wallet_address" = Some (VStr "0xabc").
Proof.
  apply (X5_dapp_connection_origin_verbatim Sample.env Sample.account
           "not a url" "0xabc" (VObj [("provider", VStr "ledger")])
           sample_keeps_fields).
  reflexivity.
Defined.

(** X6: a screen view without an address, or with the empty string as its
    address, makes no wallet lookup: whatever the account, it dispatches
    exactly one [screen_view] record, with [wallet_provider = null], the
    path as [screen_name] and the address field as it came ([null] when
    missing). *)
Theorem X6_screen_view_without_address (E : Collaborators)
    (account : Account) (address : option string) (path : string)
    (previous : option string) (screenSize : string) :
  keeps_fields (createBaseParams E) ->
  address = None \/ address = Some "" ->
  exists p : obj,
    handle E account (screenView address path previous screenSize)
      = Returns (send "screen_view" p)
    /\ p !! "wallet_provider" = Some VNull
    /\ p !! "wallet_address" = Some (nullify (optional address))
    /\ p !! "screen_name" = Some (VStr path).
Proof.
  intros Hb Haddr. cbn [handle].
  destruct (screenView_returns E account address path previous screenSize
              VNull) as (f & -> & _ & Ha & Hp & Hs).
  { by destruct Haddr as [-> | ->]. }
  eexists. split; [reflexivity|]. split; [|split].
  - exact (built_field E f "wallet_provider" _ Hb eq_refl Hp).
  - exact (built_field E f "wallet_address" _ Hb eq_refl Ha).
  - exact (built_field E f "screen_name" _ Hb eq_refl Hs).
Qed.

Lemma X6_screen_view_without_address_witness :
  exists p : obj,
    handle Sample.env Sample.locked
        (screenView None "/onboarding" None "1280x720")
      = Returns (send "screen_view" p)
    /\ p !! "wallet_provider" = Some VNull
    /\ p !! "wallet_address" = Some VNull
    /\ p !! "screen_name" = Some (VStr "/onboarding").
Proof.
  apply (X6_screen_view_without_address Sample.env Sample.locked None
           "/onboarding" None "1280x720" sample_keeps_fields).
  left. reflexivity.
Defined.

(** ** The [add_custom_evm] record and the identity-bearing builder *)

(** X7: [network_native_asset_symbol] is never [undefined] and never the
    empty string: it is [null] for a network without a native asset or
    with an empty symbol, and the symbol otherwise. *)
Theorem X7_native_asset_symbol_or_null (E : Collaborators)
    (account : Account) (network : Network) (more : list Network)
    (source : string) :
  keeps_fields (createBaseParams E) ->
  exists p : obj,
    handle E account (addEthereumChain (network :: more) source)
      = Returns (send "add_custom_evm" p)
    /\ (native_asset network = None ->
        p !! "network_native_asset_symbol" = Some VNull)
    /\ (native_asset network = Some {| symbol := "" |} ->
        p !! "network_native_asset_symbol" = Some VNull)
    /\ (forall s, native_asset network = Some {| symbol := s |} ->
        s <> "" ->
        p !! "network_native_asset_symbol" = Some (VStr s)).
Proof.
  intros Hb. cbn [handle].
  destruct (addEthereumChain_returns E account network more source)
    as (f & -> & _ & _ & _ & _ & _ & Hs & _).
  eexists. split; [reflexivity|].
  pose proof (createParams_keeps E account f "network_native_asset_symbol"
                _ Hb eq_refl Hs) as H.
  unfold native_asset_symbol, or_else in H.
  split; [|split].
  - intros Hn. by rewrite Hn in H.
  - intros Hn. by rewrite Hn in H.
  - intros s Hn Hne. rewrite Hn in H. simpl in H.
    destruct (String.eqb_spec s ""); [done|]. exact H.
Qed.

Lemma X7_native_asset_symbol_or_null_witness :
  exists p : obj,
    handle Sample.env Sample.account
        (addEthereumChain [Sample.mainnet] "https://dapp.example")
      = Returns (send "add_custom_evm" p)
    /\ p !! "network_native_asset_symbol" = Some (VStr "ETH").
Proof.
  destruct (X7_native_asset_symbol_or_null Sample.env Sample.account
              Sample.mainnet [] "https://dapp.example" sample_keeps_fields)
    as (p & Hp & _ & _ & Hsym).
  exists p. split; [exact Hp|].
  apply (Hsym "ETH"); [reflexivity | discriminate].
Defined.

(** X8: the identity-bearing builder takes the user id from the account
    and from nowhere else: whatever fields it is given, also a [userId] of
    the caller's own, the record's [user_id] is the id of the account's
    current user, or [null] when there is none. *)
Theorem X8_user_id_comes_from_account (E : Collaborators)
    (account : Account) (p : obj) :
  stores_user_id (createBaseParams E) ->
  createParams E account p !! "user_id"
    = Some (session_user_id (getUser account))
  /\ forall v : value,
       createParams E account (<["userId" := v]> p)
       = createParams E account p.
Proof.
  intros Hs. split.
  - unfold createParams. rewrite Hs. unfold get.
    rewrite lookup_insert_eq. unfold getUserId.
    by destruct (getUser account).
  - intros v. unfold createParams. by rewrite insert_insert_eq.
Qed.

Lemma X8_user_id_comes_from_account_witness :
  createParams Sample.env Sample.account
    (literal [("userId", VStr "mallory")]) !! "user_id"
  = Some (VStr "alice").
Proof.
  apply (X8_user_id_comes_from_account Sample.env Sample.account
           (literal [("userId", VStr "mallory")]) sample_stores_user_id).
Defined.

(** X9: a chain addition is translated from the first network alone and
    without consulting the wallet: the networks after the first change
    nothing, and the one [add_custom_evm] record has the requesting origin
    as [source], the network's id and name, and the [user_id] of the
    account's current user. *)
Theorem X9_chain_addition_record (E : Collaborators) (account : Account)
    (network : Network) (more : list Network) (source : string) :
  keeps_fields (createBaseParams E) ->
  stores_user_id (createBaseParams E) ->
  handle E account (addEthereumChain (network :: more) source)
  = handle E account (addEthereumChain [network] source)
  /\ exists p : obj,
       handle E account (addEthereumChain (network :: more) source)
         = Returns (send "add_custom_evm" p)
       /\ p !! "source" = Some (VStr source)
       /\ p !! "network_external_id" = Some (VStr (external_id network))
       /\ p !! "network_name" = Some (VStr (name network))
       /\ p !! "user_id" = Some (session_user_id (getUser account)).
Proof.
  intros Hb Hs. split; [reflexivity|]. cbn [handle].
  destruct (addEthereumChain_returns E account network more source)
    as (f & -> & _ & Hsrc & Hid & _ & Hname & _).
  eexists. split; [reflexivity|]. split; [|split; [|split]].
  - exact (createParams_keeps E account f "source" _ Hb eq_refl Hsrc).
  - exact (createParams_keeps E account f "network_external_id" _ Hb
             eq_refl Hid).
  - exact (createParams_keeps E account f "network_name" _ Hb eq_refl Hname).
  - unfold createParams. rewrite Hs. unfold get.
    rewrite lookup_insert_eq. unfold getUserId.
    by destruct (getUser account).
Qed.

Lemma X9_chain_addition_record_witness :
  exists p : obj,
    handle Sample.env Sample.account
        (addEthereumChain [Sample.devnet; Sample.mainnet]
           "https://dapp.example")
      = Returns (send "add_custom_evm" p)
    /\ p !! "source" = Some (VStr "https://dapp.example")
    /\ p !! "network_external_id" = Some (VStr "0x539")
    /\ p !! "network_name" = Some (VStr "Devnet")
    /\ p !! "user_id" = Some (VStr "alice").
Proof.
  destruct (X9_chain_addition_record Sample.env Sample.account
              Sample.devnet [Sample.mainnet] "https://dapp.example"
              sample_keeps_fields sample_stores_user_id) as [_ Hp].
  exact Hp.
Defined.

(** ** The order of the checks *)

(** X10: the initiator is parsed before anything else is looked at.  With
    an initiator that is not a URL, the transaction handler rejects with
    the URL constructor's TypeError, and so does (by throwing) the handler
    of a signature that is not from the internal origin, whatever the
    account: no wallet lookup is made, so a failing wallet cannot change
    the error. *)
Theorem X10_initiator_parsed_first (E : Collaborators) (account : Account)
    (ev : Event) (initiator : string) :
  initiator_of ev = Some initiator ->
  newURL E initiator = None ->
  match ev with
  | transactionSent _ _ _ _ _ =>
      handle E account ev = Rejects (TypeError "Invalid URL")
  | _ =>
      initiator <> INTERNAL_ORIGIN E ->
      handle E account ev = Throws (TypeError "Invalid URL")
  end.
Proof.
  intros Hev Hu.
  destruct ev; try discriminate; injection Hev as ->; cbn [handle].
  - unfold on_transactionSent, new_URL. by rewrite Hu.
  - intros Hi. apply String.eqb_neq in Hi.
    unfold handleSign, new_URL. by rewrite Hi, Hu.
  - intros Hi. apply String.eqb_neq in Hi.
    unfold handleSign, new_URL. by rewrite Hi, Hu.
Qed.

Lemma X10_initiator_parsed_first_witness :
  handle Sample.env Sample.locked
    (transactionSent Sample.tx "popup" VNull VNull VNull)
  = Rejects (TypeError "Invalid URL").
Proof.
  apply (X10_initiator_parsed_first Sample.env Sample.locked
           (transactionSent Sample.tx "popup" VNull VNull VNull) "popup");
    reflexivity.
Defined.

(** ** The provider for the second sink *)

(** X11: [getWalletProvider] names the provider of the same wallet group
    as the handlers' [getProvider], in the vocabulary of the second sink;
    it never throws: when the wallet lookup throws, its promise is
    rejected with the exception the handlers would let through. *)
Theorem X11_getWalletProvider_follows_lookup (E : Collaborators)
    (getProviderForApiV4 : value -> value) (account : Account)
    (address : string) :
  (forall group : value,
     wallet_group account address = Ok group ->
     getWalletProvider E getProviderForApiV4 account address
       = Fulfilled (getProviderForApiV4 (getProviderNameFromGroup E group))
     /\ getProvider E account address
        = Ok (getProviderForMetabase E (getProviderNameFromGroup E group)))
  /\ (forall e : exn,
        wallet_group account address = Raise e ->
        getWalletProvider E getProviderForApiV4 account address = Rejected e
        /\ getProvider E account address = Raise e).
Proof.
  unfold wallet_group, getWalletProvider, getProvider, queryWalletProvider.
  split.
  - intros group Hg. simpl. by rewrite Hg.
  - intros e Hg. simpl. by rewrite Hg.
Qed.

Lemma X11_getWalletProvider_follows_lookup_witness :
  getWalletProvider Sample.env
    (fun provider => VObj [("name", provider)]) Sample.account "0xabc"
  = Fulfilled (VObj [("name", VStr "ledger")])
  /\ getWalletProvider Sample.env
       (fun provider => VObj [("name", provider)]) Sample.locked "0xabc"
     = Rejected (Failure "no wallet record").
Proof.
  destruct (X11_getWalletProvider_follows_lookup Sample.env
              (fun provider => VObj [("name", provider)]) Sample.account
              "0xabc") as [Hok _].
  destruct (X11_getWalletProvider_follows_lookup Sample.env
              (fun provider => VObj [("name", provider)]) Sample.locked
              "0xabc") as [_ Hraise].
  split.
  - apply (Hok (VObj [("provider", VStr "ledger")])). reflexivity.
  - apply (Hraise (Failure "no wallet record")). reflexivity.
Defined.

(** ** Runs of the process *)

Lemma run_cons (E : Collaborators) (w : World) (a : Action)
    (actions : list Action) :
  run E w (a :: actions) = run E (step E w a) actions.
Proof. reflexivity. Qed.

Lemma handle_record_names (E : Collaborators) (account : Account)
    (ev : Event) (c : Call) :
  In c (records (handle E account ev)) -> recordName c = request_name_of ev.
Proof.
  destruct ev as [o a|a path prev size|en data|tx i fee aa q
                 |td i a|m i a|vs src|st pst];
    cbn [request_name_of].
  - unfold records. cbn [handle]. unfold on_dappConnection.
    destruct (getProvider E account a); simpl; [|done]. by intros [<-|[]].
  - unfold records. cbn [handle]. unfold on_screenView.
    match goal with
    | |- context [bind ?r _] => destruct r; simpl; [|done]
    end.
    by intros [<-|[]].
  - unfold records. cbn [handle]. by intros [<-|[]].
  - intros Hc. by apply transactionSent_fields in Hc as (g & f & _ & -> & _).
  - cbn [handle]. intros Hc.
    by apply handleSign_records in Hc as (u & g & f & _ & _ & _ & -> & _).
  - cbn [handle]. intros Hc.
    by apply handleSign_records in Hc as (u & g & f & _ & _ & _ & -> & _).
  - unfold records. cbn [handle]. destruct vs; simpl; [done|].
    by intros [<-|[]].
  - unfold records. cbn [handle]. done.
Qed.

Lemma handle_deferred (E : Collaborators) (account : Account) (ev : Event) :
  deferred (effects_of (handle E account ev)) = deferred_by ev.
Proof.
  destruct ev as [o a|a path prev size|en data|tx i fee aa q
                 |td i a|m i a|vs src|st pst];
    cbn [handle deferred_by].
  - unfold on_dappConnection. by destruct (getProvider E account a).
  - unfold on_screenView.
    match goal with
    | |- context [bind ?r _] => by destruct r
    end.
  - done.
  - unfold on_transactionSent, new_URL.
    destruct (newURL E i); simpl; [|done].
    destruct (getProvider E account (from tx)); simpl; [|done].
    by destruct (gasLimit tx).
  - unfold handleSign, new_URL.
    destruct (String.eqb i (INTERNAL_ORIGIN E)); [done|].
    destruct (newURL E i); simpl; [|done].
    by destruct (getProvider E account a).
  - unfold handleSign, new_URL.
    destruct (String.eqb i (INTERNAL_ORIGIN E)); [done|].
    destruct (newURL E i); simpl; [|done].
    by destruct (getProvider E account a).
  - by destruct vs.
  - done.
Qed.

Lemma run_task_names (E : Collaborators) (account : Account) (t : Task)
    (c : Call) :
  In c (run_task E account t) -> recordName c = "metamask_mode".
Proof.
  destruct t as [st pst]. simpl. rewrite in_app_iff, !in_map_iff.
  by intros [(k & <- & _)|(k & <- & _)].
Qed.

Lemma known_request_name (ev : Event) :
  known_name (request_name_of ev) = true.
Proof. by destruct ev. Qed.

(** X12: whatever events fire, whoever logs in or out and whenever the
    host is idle, every call to the metrics sink is made under one of the
    seven record names of the file. *)
Theorem X12_only_known_record_names (E : Collaborators) (w : World)
    (actions : list Action) :
  Forall (fun c => known_name (recordName c) = true) (metabase w) ->
  Forall (fun c => known_name (recordName c) = true)
    (metabase (run E w actions)).
Proof.
  revert w. induction actions as [|a actions IH]; intros w Hw; [done|].
  rewrite run_cons. apply IH.
  destruct a as [ev|user|]; simpl; [|done|].
  - apply Forall_app. split; [done|].
    apply List.Forall_forall. intros c Hc.
    change (In c (records (handle E (world_account w) ev))) in Hc.
    rewrite (handle_record_names _ _ _ _ Hc). apply known_request_name.
  - apply Forall_app. split; [done|].
    apply List.Forall_forall. intros c Hc.
    apply in_flat_map in Hc as (t & _ & Hc).
    by rewrite (run_task_names _ _ _ _ Hc).
Qed.

Lemma X12_only_known_record_names_witness :
  let w := {| world_account := Sample.account; idle := []; metabase := [] |} in
  Forall (fun c => known_name (recordName c) = true)
    (metabase (run Sample.env w
       [ Emit (dappConnection "https://dapp.example" "0xabc");
         Emit (globalPreferencesChange
                 (VObj [("a.example", VBool true)]) (VObj []));
         SetUser None;
         Emit (messageSigned VNull "popup" "0xabc");
         Idle ])).
Proof.
  intros w. apply (X12_only_known_record_names Sample.env w). constructor.
Defined.

(** X13: only a preference change hands work to [onIdle], one callback
    per event: while the host is not idle, the waiting callbacks are those
    that waited before, followed by one for each preference change fired,
    in the order fired, whatever else happened in between (other events,
    failing handlers, logins).  Once the host has been idle none waits. *)
Theorem X13_idle_queue (E : Collaborators) (w : World)
    (actions : list Action) :
  (forallb (fun a => negb (is_idle a)) actions = true ->
   idle (run E w actions) = (idle w ++ tasks_of actions)%list)
  /\ idle (run E w (actions ++ [Idle])) = [].
Proof.
  split.
  - revert w. induction actions as [|a actions IH]; intros w Hno.
    { simpl. by rewrite app_nil_r. }
    simpl in Hno. apply andb_true_iff in Hno as [Ha Hno].
    rewrite run_cons, (IH _ Hno).
    destruct a as [ev|user|]; simpl; [|done|done].
    by rewrite handle_deferred, app_assoc.
  - unfold run. by rewrite foldl_app.
Qed.

Lemma X13_idle_queue_witness :
  let w := {| world_account := Sample.locked; idle := []; metabase := [] |} in
  idle (run Sample.env w
    [ Emit (globalPreferencesChange (VNum 1) (VNum 0));
      Emit (dappConnection "https://dapp.example" "0xabc");
      SetUser (Some Sample.bob);
      Emit (globalPreferencesChange (VNum 2) (VNum 1)) ])
  = [ flagsChangeTask (VNum 1) (VNum 0); flagsChangeTask (VNum 2) (VNum 1) ].
Proof.
  intros w.
  destruct (X13_idle_queue Sample.env w
    [ Emit (globalPreferencesChange (VNum 1) (VNum 0));
      Emit (dappConnection "https://dapp.example" "0xabc");
      SetUser (Some Sample.bob);
      Emit (globalPreferencesChange (VNum 2) (VNum 1)) ]) as [Hq _].
  apply Hq. reflexivity.
Defined.


(** ** Where the internal origin matters *)


